(** * The Windows system-time bridge of ThreeTen (jsr-310.cpp)

    A shallow embedding of [src/main/cpp/win/jsr-310.cpp]: the three exported
    functions [JNI_OnLoad], [Java_javax_time_impl_WindowsSystemTime_get] and
    [Java_javax_time_impl_WindowsSystemTime_getAdjustment], over a model of
    the two Win32 queries they call, and the properties of the 64-bit values
    they hand to the Java side. *)

From Stdlib Require Import ZArith List Lia Bool Sorted.
Import ListNotations.
Local Open Scope Z_scope.

(** ** Machine types

    [DWORD] is an unsigned 32-bit integer, [BOOL] is the Win32 [int] whose
    only observed property is being zero or not, [jint] and [jlong] are the
    signed 32- and 64-bit integers of jni.h.  All are carried by [Z]; the
    range of a [DWORD] is the predicate [DWORD_ok], and arithmetic on a
    [jlong] that can leave the range is wrapped by [to_jlong]. *)

Definition DWORD := Z.
Definition BOOL := Z.
Definition jint := Z.
Definition jlong := Z.
Definition pointer := Z.

Definition DWORD_ok (x : DWORD) : Prop := 0 <= x < 2 ^ 32.

(** A C condition on a [BOOL]: [if (b)] holds when [b] is not zero. *)
Definition truthy (b : BOOL) : bool := negb (b =? 0).

(** Two's complement wrap-around into [-2^63, 2^63). *)
Definition to_jlong (z : Z) : jlong := (z + 2 ^ 63) mod 2 ^ 64 - 2 ^ 63.

(** [(jlong)d] for a [DWORD] [d]: zero extension, the value is kept. *)
Definition jlong_of_DWORD (d : DWORD) : jlong := d.

(** [x << n] on a [jlong], as the 64-bit machine shift the compiler emits:
    the bits that leave the word are lost and bit 63 becomes the sign. *)
Definition jlong_shl (x : jlong) (n : Z) : jlong := to_jlong (Z.shiftl x n).

(** [x | y] on [jlong]: bit by bit on the two's complement representation. *)
Definition jlong_or (x y : jlong) : jlong := Z.lor x y.

(** The value built on the success path of [getAdjustment]: the statements
    [jlong t = (((jlong)timeAdjustment) << 32) | ((jlong)timeIncrement);]
    and [if (disabled) t |= (((jlong)1) << 63);]. *)
Definition pack_adjustment (timeAdjustment timeIncrement : DWORD) (disabled : BOOL) : jlong :=
  let t := jlong_or (jlong_shl (jlong_of_DWORD timeAdjustment) 32)
                    (jlong_of_DWORD timeIncrement) in
  let t := if truthy disabled then jlong_or t (jlong_shl 1 63) else t in
  t.

(** ** Win32 structures *)

Record FILETIME : Type := mkFILETIME
  { dwLowDateTime : DWORD;
    dwHighDateTime : DWORD }.

Definition FILETIME_ok (ft : FILETIME) : Prop :=
  DWORD_ok (dwLowDateTime ft) /\ DWORD_ok (dwHighDateTime ft).

(** The number of 100-nanosecond ticks a [FILETIME] stands for. *)
Definition ticks (ft : FILETIME) : Z :=
  dwLowDateTime ft + dwHighDateTime ft * 2 ^ 32.

(** The anonymous union of [get]: eight bytes of storage, kept as the
    unsigned 64-bit number they spell in little-endian order.  Storing the
    [fileTime] member puts [dwLowDateTime] in the four low bytes and
    [dwHighDateTime] in the four high bytes; reading the [time64] member
    reinterprets the eight bytes as a signed integer. *)
Record time_union : Type := mk_time_union { union_bits : Z }.

Definition store_fileTime (ft : FILETIME) : time_union :=
  {| union_bits := Z.lor (Z.shiftl (dwHighDateTime ft) 32) (dwLowDateTime ft) |}.

Definition time64 (t : time_union) : jlong := to_jlong (union_bits t).

(** The [time] member of the same union is a [LARGE_INTEGER]: the low four
    bytes are an unsigned [LowPart], the high four bytes a signed
    [HighPart], and [QuadPart] is the signed 64-bit number the two stand
    for.  This is the 64-bit value of a reading in the order of the type
    the union is read through. *)
Definition LONG_of_DWORD (d : DWORD) : Z := if d <? 2 ^ 31 then d else d - 2 ^ 32.

Definition QuadPart (ft : FILETIME) : Z :=
  dwLowDateTime ft + LONG_of_DWORD (dwHighDateTime ft) * 2 ^ 32.

(** What one call of [GetSystemTimeAdjustment] leaves behind: its return
    value and the contents of the three locals whose addresses it was given
    (on failure, whatever those locals hold). *)
Record AdjustmentOutcome : Type := mkAdjustmentOutcome
  { result : BOOL;
    timeAdjustment : DWORD;
    timeIncrement : DWORD;
    disabled : BOOL }.

Definition AdjustmentOutcome_ok (o : AdjustmentOutcome) : Prop :=
  DWORD_ok (timeAdjustment o) /\ DWORD_ok (timeIncrement o).

(** ** A scripted operating system

    A mock instance of the two queries: the clock is a script indexed by the
    number of readings taken so far, the adjustment query always answers
    with the same outcome. *)

Record MockOS : Type := mkMockOS
  { mock_reads : nat;
    mock_clock : nat -> FILETIME;
    mock_adjustment : AdjustmentOutcome }.

Definition mock_GetSystemTimeAsFileTime (m : MockOS) : FILETIME * MockOS :=
  (mock_clock m (mock_reads m),
   {| mock_reads := S (mock_reads m);
      mock_clock := mock_clock m;
      mock_adjustment := mock_adjustment m |}).

Definition mock_GetSystemTimeAdjustment (m : MockOS) : AdjustmentOutcome * MockOS :=
  (mock_adjustment m, m).

(** A mock whose adjustment query answers [o]; its clock stands at zero. *)
Definition mock_adjusting (o : AdjustmentOutcome) : MockOS :=
  {| mock_reads := 0; mock_clock := fun _ => mkFILETIME 0 0; mock_adjustment := o |}.

(** A mock whose clock reads out the list [fts], then repeats [last]. *)
Definition mock_ticking (fts : list FILETIME) (last : FILETIME) : MockOS :=
  {| mock_reads := 0;
     mock_clock := fun k => nth k fts last;
     mock_adjustment := mkAdjustmentOutcome 0 0 0 0 |}.

(** ** The bridge *)

Section TimeBridge.

(** The state of the operating system, and the two queries as functions of
    it: each returns what it wrote and the state it leaves. *)
Variable OS : Type.
Variable GetSystemTimeAsFileTime : OS -> FILETIME * OS.
Variable GetSystemTimeAdjustment : OS -> AdjustmentOutcome * OS.

(** The version constant of jni.h. *)
Variable JNI_VERSION_1_2 : jint.

(** Native code running against the operating system. *)
Definition Native (A : Type) : Type := OS -> A * OS.

Definition ret {A : Type} (a : A) : Native A := fun s => (a, s).

Definition bind {A B : Type} (c : Native A) (k : A -> Native B) : Native B :=
  fun s => let (a, s') := c s in k a s'.

Notation "x <- c ;; k" := (bind c (fun x => k))
  (at level 61, c at next level, right associativity).

(** [JNI_OnLoad]: both statements before the [return] are comments. *)
Definition JNI_OnLoad (vm reserved : pointer) : Native jint :=
  ret JNI_VERSION_1_2.

(** [Java_javax_time_impl_WindowsSystemTime_get] *)
Definition Java_javax_time_impl_WindowsSystemTime_get (env cls : pointer) : Native jlong :=
  fileTime <- GetSystemTimeAsFileTime ;;
  let t := store_fileTime fileTime in
  ret (time64 t).

(** [Java_javax_time_impl_WindowsSystemTime_getAdjustment] *)
Definition Java_javax_time_impl_WindowsSystemTime_getAdjustment (env cls : pointer) : Native jlong :=
  o <- GetSystemTimeAdjustment ;;
  if negb (truthy (result o)) then ret (-1)
  else ret (pack_adjustment (timeAdjustment o) (timeIncrement o) (disabled o)).

(** [n] consecutive calls of [get], oldest first. *)
Fixpoint consecutive_gets (env cls : pointer) (n : nat) : Native (list jlong) :=
  match n with
  | O => ret []
  | S k =>
      t <- Java_javax_time_impl_WindowsSystemTime_get env cls ;;
      ts <- consecutive_gets env cls k ;;
      ret (t :: ts)
  end.

(** The [n] next readings of the operating system's clock, oldest first. *)
Fixpoint clock_readings (n : nat) : Native (list FILETIME) :=
  match n with
  | O => ret []
  | S k =>
      ft <- GetSystemTimeAsFileTime ;;
      fts <- clock_readings k ;;
      ret (ft :: fts)
  end.

End TimeBridge.

Arguments ret {OS A} a s.
Arguments bind {OS A B} c k s.
Arguments JNI_OnLoad {OS} JNI_VERSION_1_2 vm reserved s.
Arguments Java_javax_time_impl_WindowsSystemTime_get {OS} GetSystemTimeAsFileTime env cls s.
Arguments Java_javax_time_impl_WindowsSystemTime_getAdjustment {OS} GetSystemTimeAdjustment env cls s.
Arguments consecutive_gets {OS} GetSystemTimeAsFileTime env cls n s.
Arguments clock_readings {OS} GetSystemTimeAsFileTime n s.

(** Reading the three fields back from a value of [getAdjustment], by the
    layout it is packed in: the flag is bit 63, the adjustment is bits 32 to
    62, the increment is bits 0 to 31. *)
Definition decode_disabled (t : jlong) : bool := Z.testbit t 63.
Definition decode_adjustment (t : jlong) : Z := Z.land (Z.shiftr t 32) (2 ^ 31 - 1).
Definition decode_increment (t : jlong) : Z := Z.land t (2 ^ 32 - 1).

(** ** Sample outcomes of the two queries *)

(** The values of an undisturbed clock: 156250 ticks every 15.625 ms. *)
Definition outcome_typical : AdjustmentOutcome := mkAdjustmentOutcome 1 156250 156250 0.

(** An adjustment with its top bit set, adjustment enabled. *)
Definition outcome_large_enabled : AdjustmentOutcome := mkAdjustmentOutcome 1 (2 ^ 31) 5 0.

(** The same without the top bit, adjustment disabled. *)
Definition outcome_small_disabled : AdjustmentOutcome := mkAdjustmentOutcome 1 0 5 1.

(** Both words at their maximum. *)
Definition outcome_all_ones : AdjustmentOutcome :=
  mkAdjustmentOutcome 1 (2 ^ 32 - 1) (2 ^ 32 - 1) 0.

(** A failed call; the three locals hold leftovers. *)
Definition outcome_failure : AdjustmentOutcome := mkAdjustmentOutcome 0 5 7 1.

(** The last tick count below [2^63] and the first one from there on. *)
Definition filetime_below_sign : FILETIME := mkFILETIME (2 ^ 32 - 1) (2 ^ 31 - 1).
Definition filetime_at_sign : FILETIME := mkFILETIME 0 (2 ^ 31).

(** ** Two's complement arithmetic *)

Lemma to_jlong_range (z : Z) : - 2 ^ 63 <= to_jlong z < 2 ^ 63.
Proof.
  unfold to_jlong.
  pose proof (Z.mod_pos_bound (z + 2 ^ 63) (2 ^ 64) ltac:(lia)). lia.
Qed.

Lemma to_jlong_small (z : Z) : - 2 ^ 63 <= z < 2 ^ 63 -> to_jlong z = z.
Proof.
  intros H. unfold to_jlong. rewrite Z.mod_small by lia. lia.
Qed.

Lemma to_jlong_mod (z : Z) : to_jlong z mod 2 ^ 64 = z mod 2 ^ 64.
Proof.
  unfold to_jlong.
  replace ((z + 2 ^ 63) mod 2 ^ 64 - 2 ^ 63)
    with ((z + 2 ^ 63) mod 2 ^ 64 + 2 ^ 63 + (-1) * 2 ^ 64) by lia.
  rewrite Z.mod_add by lia.
  rewrite Z.add_mod_idemp_l by lia.
  replace (z + 2 ^ 63 + 2 ^ 63) with (z + 1 * 2 ^ 64) by lia.
  apply Z.mod_add. lia.
Qed.

Lemma to_jlong_testbit (z i : Z) :
  0 <= i < 64 -> Z.testbit (to_jlong z) i = Z.testbit z i.
Proof.
  intros Hi.
  rewrite <- (Z.mod_pow2_bits_low (to_jlong z) 64 i) by lia.
  rewrite to_jlong_mod. apply Z.mod_pow2_bits_low. lia.
Qed.

(** Two integers of the signed range that agree modulo [2^64] are equal. *)
Lemma jlong_eq_mod (x y : Z) :
  - 2 ^ 63 <= x < 2 ^ 63 -> - 2 ^ 63 <= y < 2 ^ 63 ->
  x mod 2 ^ 64 = y mod 2 ^ 64 -> x = y.
Proof.
  intros Hx Hy H.
  rewrite <- (to_jlong_small x Hx), <- (to_jlong_small y Hy).
  unfold to_jlong.
  rewrite <- (Z.add_mod_idemp_l x), <- (Z.add_mod_idemp_l y) by lia.
  rewrite H. reflexivity.
Qed.

(** The sign of an integer of the signed range is its bit 63. *)
Lemma jlong_sign_bit (t : Z) :
  - 2 ^ 63 <= t < 2 ^ 63 -> Z.testbit t 63 = (t <? 0).
Proof.
  intros Ht. destruct (Z.ltb_spec t 0) as [Hneg | Hpos].
  - rewrite <- (Z.mod_pow2_bits_low t 64 63) by lia.
    replace (t mod 2 ^ 64) with (t + 2 ^ 63 + 1 * 2 ^ 63)
      by (apply Z.mod_unique with (q := -1); lia).
    apply Z.testbit_true; [lia |].
    rewrite Z.div_add by lia.
    rewrite Z.div_small by lia. reflexivity.
  - apply Z.testbit_false; [lia|].
    rewrite Z.div_small by lia. reflexivity.
Qed.

(** A number below [2^n] has no bit at or above [n]. *)
Lemma testbit_above (r n i : Z) :
  0 <= r < 2 ^ n -> 0 <= n <= i -> Z.testbit r i = false.
Proof.
  intros Hr Hi.
  rewrite <- (Z.mod_small r (2 ^ n)) by lia.
  apply Z.mod_pow2_bits_high. lia.
Qed.

(** OR-ing a multiple of [2^n] with a number below [2^n] adds them. *)
Lemma lor_disjoint_add (k r n : Z) :
  0 <= n -> 0 <= r < 2 ^ n -> Z.lor (k * 2 ^ n) r = k * 2 ^ n + r.
Proof.
  intros Hn Hr.
  assert (Hland : Z.land (k * 2 ^ n) r = 0).
  { apply Z.bits_inj'. intros i Hi.
    rewrite Z.land_spec, Z.bits_0.
    destruct (Z.lt_ge_cases i n) as [Hlt | Hge].
    - rewrite Z.mul_pow2_bits_low by lia. reflexivity.
    - rewrite (testbit_above r n i) by lia. apply andb_false_r. }
  rewrite <- Z.lxor_lor by exact Hland.
  symmetry. apply Z.add_nocarry_lxor. exact Hland.
Qed.

(** ** The packed adjustment value *)

(** The adjustment shifted into the high word: it keeps its value while it
    stays below [2^31], and turns negative from there on. *)
Lemma high_word_value (A : DWORD) :
  DWORD_ok A ->
  jlong_shl (jlong_of_DWORD A) 32 = (if A <? 2 ^ 31 then A else A - 2 ^ 32) * 2 ^ 32.
Proof.
  unfold DWORD_ok, jlong_shl, jlong_of_DWORD. intros HA.
  rewrite Z.shiftl_mul_pow2 by lia.
  destruct (Z.ltb_spec A (2 ^ 31)) as [Hlow | Hhigh].
  - apply to_jlong_small. lia.
  - unfold to_jlong.
    replace ((A * 2 ^ 32 + 2 ^ 63) mod 2 ^ 64) with (A * 2 ^ 32 + 2 ^ 63 - 2 ^ 64).
    + lia.
    + apply Z.mod_unique with (q := 1); lia.
Qed.

(** [((jlong)1) << 63] is the most negative [jlong]. *)
Lemma sign_mask_value : jlong_shl 1 63 = - 2 ^ 63.
Proof. reflexivity. Qed.

Lemma sign_mask_testbit (i : Z) :
  0 <= i < 64 -> Z.testbit (jlong_shl 1 63) i = (i =? 63).
Proof.
  intros Hi. unfold jlong_shl.
  rewrite to_jlong_testbit, Z.shiftl_spec by lia.
  destruct (Z.eqb_spec i 63) as [-> | Hne].
  - reflexivity.
  - apply Z.testbit_neg_r. lia.
Qed.

(** Setting the sign bit of a [jlong]: nothing changes when it is negative
    already, and [2^63] is taken off otherwise. *)
Lemma lor_sign_mask (t : Z) :
  - 2 ^ 63 <= t < 2 ^ 63 ->
  Z.lor t (- 2 ^ 63) = if t <? 0 then t else t - 2 ^ 63.
Proof.
  intros Ht.
  replace (- 2 ^ 63) with (-1 * 2 ^ 63) by lia.
  destruct (Z.ltb_spec t 0) as [Hneg | Hpos].
  - replace t with (-1 * 2 ^ 63 + (t + 2 ^ 63)) at 1 by lia.
    rewrite <- (lor_disjoint_add (-1) (t + 2 ^ 63) 63) by lia.
    rewrite Z.lor_comm, Z.lor_assoc, Z.lor_diag.
    rewrite lor_disjoint_add by lia. lia.
  - rewrite Z.lor_comm, lor_disjoint_add by lia. lia.
Qed.

(** The packed value as a number. *)
Lemma pack_adjustment_value (A I : DWORD) (d : BOOL) :
  DWORD_ok A -> DWORD_ok I ->
  pack_adjustment A I d =
    A * 2 ^ 32 + I
    - (if A <? 2 ^ 31 then (if truthy d then 2 ^ 63 else 0) else 2 ^ 64).
Proof.
  intros HA HI. unfold pack_adjustment, jlong_or.
  rewrite high_word_value by exact HA.
  rewrite sign_mask_value.
  unfold jlong_of_DWORD. unfold DWORD_ok in HA, HI.
  rewrite lor_disjoint_add by lia.
  destruct (truthy d).
  - rewrite lor_sign_mask by (destruct (A <? 2 ^ 31) eqn:E; lia).
    destruct (Z.ltb_spec A (2 ^ 31)) as [Hlow | Hhigh].
    + destruct (Z.ltb_spec (A * 2 ^ 32 + I) 0); lia.
    + destruct (Z.ltb_spec ((A - 2 ^ 32) * 2 ^ 32 + I) 0); lia.
  - destruct (Z.ltb_spec A (2 ^ 31)); lia.
Qed.

Lemma pack_adjustment_range (A I : DWORD) (d : BOOL) :
  DWORD_ok A -> DWORD_ok I ->
  - 2 ^ 63 <= pack_adjustment A I d < 2 ^ 63.
Proof.
  intros HA HI. rewrite pack_adjustment_value by assumption.
  unfold DWORD_ok in HA, HI.
  destruct (Z.ltb_spec A (2 ^ 31)); destruct (truthy d); lia.
Qed.

(** The packed value bit by bit. *)
Lemma pack_adjustment_testbit (A I : DWORD) (d : BOOL) (i : Z) :
  DWORD_ok I -> 0 <= i < 64 ->
  Z.testbit (pack_adjustment A I d) i =
    (if i <? 32 then Z.testbit I i else Z.testbit A (i - 32))
    || (truthy d && (i =? 63)).
Proof.
  intros HI Hi.
  assert (Hpacked :
    Z.testbit (jlong_or (jlong_shl (jlong_of_DWORD A) 32) (jlong_of_DWORD I)) i =
    if i <? 32 then Z.testbit I i else Z.testbit A (i - 32)).
  { unfold jlong_or, jlong_shl, jlong_of_DWORD.
    rewrite Z.lor_spec, to_jlong_testbit by lia.
    destruct (Z.ltb_spec i 32) as [Hlow | Hhigh].
    - rewrite Z.shiftl_spec_low by lia. reflexivity.
    - rewrite Z.shiftl_spec by lia.
      rewrite (testbit_above I 32 i) by (unfold DWORD_ok in HI; lia).
      apply orb_false_r. }
  unfold pack_adjustment. destruct (truthy d).
  - unfold jlong_or at 1. rewrite Z.lor_spec, Hpacked, sign_mask_testbit by lia.
    reflexivity.
  - rewrite Hpacked. rewrite andb_false_l, orb_false_r. reflexivity.
Qed.

(** ** Running [getAdjustment] *)

Lemma truthy_true (b : BOOL) : b <> 0 -> truthy b = true.
Proof.
  intros H. unfold truthy. destruct (Z.eqb_spec b 0); [contradiction | reflexivity].
Qed.

Lemma truthy_false (b : BOOL) : b = 0 -> truthy b = false.
Proof. intros ->. reflexivity. Qed.

Lemma getAdjustment_failure {OS : Type} (GSTA : OS -> AdjustmentOutcome * OS)
    (env cls : pointer) (s s' : OS) (o : AdjustmentOutcome) :
  GSTA s = (o, s') -> result o = 0 ->
  Java_javax_time_impl_WindowsSystemTime_getAdjustment GSTA env cls s = (-1, s').
Proof.
  intros Hos Hres.
  unfold Java_javax_time_impl_WindowsSystemTime_getAdjustment, bind.
  rewrite Hos, (truthy_false _ Hres). reflexivity.
Qed.

Lemma getAdjustment_success {OS : Type} (GSTA : OS -> AdjustmentOutcome * OS)
    (env cls : pointer) (s s' : OS) (o : AdjustmentOutcome) :
  GSTA s = (o, s') -> result o <> 0 ->
  Java_javax_time_impl_WindowsSystemTime_getAdjustment GSTA env cls s =
    (pack_adjustment (timeAdjustment o) (timeIncrement o) (disabled o), s').
Proof.
  intros Hos Hres.
  unfold Java_javax_time_impl_WindowsSystemTime_getAdjustment, bind.
  rewrite Hos, (truthy_true _ Hres). reflexivity.
Qed.

(** The plain OR of the two words, as a number. *)
Lemma lor_words (A I : DWORD) :
  DWORD_ok I -> Z.lor (Z.shiftl A 32) I = A * 2 ^ 32 + I.
Proof.
  intros HI. rewrite Z.shiftl_mul_pow2 by lia.
  apply lor_disjoint_add; [lia | exact HI].
Qed.

(** ** The layout with adjustment enabled *)

(** C1, as stated, fails: with the adjustment [2^31], the increment 5 and
    [disabled = FALSE], the call succeeding, the result is [5 - 2^63] and
    its bit 63 is set. *)
Lemma getAdjustment_enabled_bit63_set :
  AdjustmentOutcome_ok outcome_large_enabled /\
  result outcome_large_enabled <> 0 /\
  disabled outcome_large_enabled = 0 /\
  fst (Java_javax_time_impl_WindowsSystemTime_getAdjustment
         mock_GetSystemTimeAdjustment 0 0 (mock_adjusting outcome_large_enabled))
    = 5 - 2 ^ 63 /\
  Z.testbit
    (fst (Java_javax_time_impl_WindowsSystemTime_getAdjustment
            mock_GetSystemTimeAdjustment 0 0 (mock_adjusting outcome_large_enabled)))
    63 = true.
Proof.
  unfold AdjustmentOutcome_ok, DWORD_ok. cbn.
  repeat split; try lia; try discriminate.
Qed.

(** C1, amended: when the call succeeds with adjustment [A], increment [I]
    and [disabled = FALSE], the result is the 64-bit pattern [(A<<32)|I]
    read as a signed number; its bit 63 is bit 31 of [A], so it is clear
    exactly when [A < 2^31], and then the result is the number [(A<<32)|I]. *)
Theorem getAdjustment_enabled_layout {OS : Type} (GSTA : OS -> AdjustmentOutcome * OS)
    (env cls : pointer) (s s' : OS) (o : AdjustmentOutcome) :
  GSTA s = (o, s') ->
  AdjustmentOutcome_ok o ->
  result o <> 0 ->
  disabled o = 0 ->
  let t := fst (Java_javax_time_impl_WindowsSystemTime_getAdjustment GSTA env cls s) in
  t = to_jlong (Z.lor (Z.shiftl (timeAdjustment o) 32) (timeIncrement o)) /\
  Z.testbit t 63 = Z.testbit (timeAdjustment o) 31 /\
  Z.testbit t 63 = negb (timeAdjustment o <? 2 ^ 31) /\
  (timeAdjustment o < 2 ^ 31 ->
   t = Z.lor (Z.shiftl (timeAdjustment o) 32) (timeIncrement o)).
Proof.
  intros Hos [HA HI] Hres Hdis t. subst t.
  rewrite (getAdjustment_success GSTA env cls s s' o Hos Hres). cbn [fst].
  rewrite lor_words by exact HI.
  pose proof (pack_adjustment_value _ _ (disabled o) HA HI) as Hval.
  pose proof (pack_adjustment_range _ _ (disabled o) HA HI) as Hrange.
  rewrite (truthy_false _ Hdis) in Hval.
  assert (Hsign : Z.testbit (pack_adjustment (timeAdjustment o) (timeIncrement o) (disabled o)) 63
                  = negb (timeAdjustment o <? 2 ^ 31)).
  { rewrite jlong_sign_bit by exact Hrange. rewrite Hval.
    unfold DWORD_ok in HA, HI.
    destruct (Z.ltb_spec (timeAdjustment o) (2 ^ 31));
      destruct (Z.ltb_spec (timeAdjustment o * 2 ^ 32 + timeIncrement o - 0) 0);
      destruct (Z.ltb_spec (timeAdjustment o * 2 ^ 32 + timeIncrement o - 2 ^ 64) 0);
      cbn; lia || reflexivity. }
  split; [| split; [| split]].
  - apply jlong_eq_mod; [exact Hrange | apply to_jlong_range |].
    rewrite to_jlong_mod, Hval.
    destruct (timeAdjustment o <? 2 ^ 31).
    + f_equal. lia.
    + replace (timeAdjustment o * 2 ^ 32 + timeIncrement o - 2 ^ 64)
        with (timeAdjustment o * 2 ^ 32 + timeIncrement o + (-1) * 2 ^ 64) by lia.
      apply Z.mod_add. lia.
  - rewrite pack_adjustment_testbit by (exact HI || lia).
    rewrite (truthy_false _ Hdis). cbn. apply orb_false_r.
  - exact Hsign.
  - intros Hlow. rewrite Hval.
    destruct (Z.ltb_spec (timeAdjustment o) (2 ^ 31)); lia.
Qed.

Lemma getAdjustment_enabled_layout_typical :
  fst (Java_javax_time_impl_WindowsSystemTime_getAdjustment
         mock_GetSystemTimeAdjustment 0 0 (mock_adjusting outcome_typical))
    = to_jlong (Z.lor (Z.shiftl 156250 32) 156250) /\
  Z.testbit
    (fst (Java_javax_time_impl_WindowsSystemTime_getAdjustment
            mock_GetSystemTimeAdjustment 0 0 (mock_adjusting outcome_typical)))
    63 = false.
Proof.
  pose proof (getAdjustment_enabled_layout mock_GetSystemTimeAdjustment 0 0
                (mock_adjusting outcome_typical) (mock_adjusting outcome_typical)
                outcome_typical) as H.
  cbv zeta in H.
  destruct H as (Hval & _ & Hbit & _).
  - reflexivity.
  - unfold AdjustmentOutcome_ok, DWORD_ok; cbn; lia.
  - cbn; discriminate.
  - reflexivity.
  - split; [exact Hval | exact Hbit].
Defined.

(** ** The disabled flag *)

(** C2: when the call succeeds with [disabled] true, bit 63 of the result is
    set, whatever the adjustment and the increment are. *)
Theorem getAdjustment_disabled_sets_bit63 {OS : Type} (GSTA : OS -> AdjustmentOutcome * OS)
    (env cls : pointer) (s s' : OS) (o : AdjustmentOutcome) :
  GSTA s = (o, s') ->
  result o <> 0 ->
  disabled o <> 0 ->
  Z.testbit (fst (Java_javax_time_impl_WindowsSystemTime_getAdjustment GSTA env cls s)) 63
    = true.
Proof.
  intros Hos Hres Hdis.
  rewrite (getAdjustment_success GSTA env cls s s' o Hos Hres). cbn [fst].
  unfold pack_adjustment. rewrite (truthy_true _ Hdis).
  unfold jlong_or at 1.
  rewrite Z.lor_spec, sign_mask_testbit by lia.
  apply orb_true_r.
Qed.

Lemma getAdjustment_disabled_sets_bit63_small :
  Z.testbit
    (fst (Java_javax_time_impl_WindowsSystemTime_getAdjustment
            mock_GetSystemTimeAdjustment 0 0 (mock_adjusting outcome_small_disabled)))
    63 = true.
Proof.
  apply (getAdjustment_disabled_sets_bit63 mock_GetSystemTimeAdjustment 0 0
           (mock_adjusting outcome_small_disabled) (mock_adjusting outcome_small_disabled)
           outcome_small_disabled).
  - reflexivity.
  - cbn; discriminate.
  - cbn; discriminate.
Defined.

(** ** The failure sentinel *)

(** The packed value is all ones exactly when the increment is [2^32 - 1]
    and the adjustment is [2^32 - 1], or [2^31 - 1] with the flag set. *)
Lemma pack_adjustment_all_ones (A I : DWORD) (d : BOOL) :
  DWORD_ok A -> DWORD_ok I ->
  (pack_adjustment A I d = -1 <->
   I = 2 ^ 32 - 1 /\ (A = 2 ^ 32 - 1 \/ (A = 2 ^ 31 - 1 /\ d <> 0))).
Proof.
  intros HA HI. rewrite pack_adjustment_value by assumption.
  unfold DWORD_ok in HA, HI. unfold truthy.
  destruct (Z.ltb_spec A (2 ^ 31)); destruct (Z.eqb_spec d 0); cbn [negb]; lia.
Qed.

(** C3: the result is [-1] on every failure of the OS call, whatever the
    three locals hold; and it is [-1] if and only if the call failed or it
    succeeded with outputs that pack to all ones, which are the outputs
    with increment [2^32 - 1] and adjustment [2^32 - 1], or adjustment
    [2^31 - 1] and the flag set. *)
Theorem getAdjustment_minus_one {OS : Type} (GSTA : OS -> AdjustmentOutcome * OS)
    (env cls : pointer) (s s' : OS) (o : AdjustmentOutcome) :
  GSTA s = (o, s') ->
  let t := fst (Java_javax_time_impl_WindowsSystemTime_getAdjustment GSTA env cls s) in
  (result o = 0 -> t = -1) /\
  (t = -1 <->
   result o = 0 \/
   (result o <> 0 /\
    pack_adjustment (timeAdjustment o) (timeIncrement o) (disabled o) = -1)) /\
  (AdjustmentOutcome_ok o ->
   (t = -1 <->
    result o = 0 \/
    (result o <> 0 /\ timeIncrement o = 2 ^ 32 - 1 /\
     (timeAdjustment o = 2 ^ 32 - 1 \/
      (timeAdjustment o = 2 ^ 31 - 1 /\ disabled o <> 0))))).
Proof.
  intros Hos t. subst t.
  destruct (Z.eq_dec (result o) 0) as [Hfail | Hok].
  - rewrite (getAdjustment_failure GSTA env cls s s' o Hos Hfail). cbn [fst].
    repeat split; auto.
  - rewrite (getAdjustment_success GSTA env cls s s' o Hos Hok). cbn [fst].
    split; [contradiction | split].
    + split; [auto | intros [Hfail | [_ H]]; [contradiction | exact H]].
    + intros [HA HI].
      rewrite (pack_adjustment_all_ones _ _ (disabled o) HA HI).
      split; [auto | intros [Hfail | [_ H]]; [contradiction | exact H]].
Qed.

Lemma getAdjustment_minus_one_on_failure :
  fst (Java_javax_time_impl_WindowsSystemTime_getAdjustment
         mock_GetSystemTimeAdjustment 0 0 (mock_adjusting outcome_failure)) = -1.
Proof.
  pose proof (getAdjustment_minus_one mock_GetSystemTimeAdjustment 0 0
                (mock_adjusting outcome_failure) (mock_adjusting outcome_failure)
                outcome_failure) as H.
  cbv zeta in H.
  destruct H as [Hfail _].
  - reflexivity.
  - apply Hfail. reflexivity.
Defined.

(** C4: a successful outcome exists (both words at [2^32 - 1]) on which the
    result is [-1], the value every failed call yields: the results of the
    two calls are equal. *)
Theorem getAdjustment_sentinel_ambiguous :
  exists o_success : AdjustmentOutcome,
    AdjustmentOutcome_ok o_success /\
    result o_success <> 0 /\
    forall (OS : Type) (GSTA : OS -> AdjustmentOutcome * OS) (env cls : pointer) (s s' : OS),
      GSTA s = (o_success, s') ->
      fst (Java_javax_time_impl_WindowsSystemTime_getAdjustment GSTA env cls s) = -1 /\
      forall (r r' : OS) (o_failure : AdjustmentOutcome),
        GSTA r = (o_failure, r') ->
        result o_failure = 0 ->
        fst (Java_javax_time_impl_WindowsSystemTime_getAdjustment GSTA env cls r) =
        fst (Java_javax_time_impl_WindowsSystemTime_getAdjustment GSTA env cls s).
Proof.
  exists outcome_all_ones.
  assert (Hwf : AdjustmentOutcome_ok outcome_all_ones)
    by (unfold AdjustmentOutcome_ok, DWORD_ok; cbn; lia).
  assert (Hok : result outcome_all_ones <> 0) by (cbn; discriminate).
  split; [exact Hwf | split; [exact Hok |]].
  intros OS GSTA env cls s s' Hos.
  assert (Hones :
    fst (Java_javax_time_impl_WindowsSystemTime_getAdjustment GSTA env cls s) = -1).
  { rewrite (getAdjustment_success GSTA env cls s s' _ Hos Hok). reflexivity. }
  split; [exact Hones |].
  intros r r' o_failure Hor Hfail.
  rewrite Hones, (getAdjustment_failure GSTA env cls r r' _ Hor Hfail). reflexivity.
Qed.

(** ** The overlap of the flag with the adjustment *)

(** An adjustment with bit 31 set and the flag clear packs to the same value
    as the adjustment without that bit and the flag set. *)
Lemma pack_adjustment_overlap (a I : DWORD) (d : BOOL) :
  0 <= a < 2 ^ 31 -> DWORD_ok I -> d <> 0 ->
  pack_adjustment (a + 2 ^ 31) I 0 = pack_adjustment a I d.
Proof.
  intros Ha HI Hd.
  rewrite !pack_adjustment_value by (unfold DWORD_ok in *; lia).
  rewrite (truthy_true d Hd).
  destruct (Z.ltb_spec (a + 2 ^ 31) (2 ^ 31)); destruct (Z.ltb_spec a (2 ^ 31)); lia.
Qed.

(** C5: two distinct successful outcomes exist, one with bit 31 of the
    adjustment set and the flag clear, one with the flag set and an
    adjustment that differs in bit 31 only, the increments equal, on which
    the results are equal. *)
Theorem getAdjustment_not_injective :
  exists o1 o2 : AdjustmentOutcome,
    AdjustmentOutcome_ok o1 /\ AdjustmentOutcome_ok o2 /\
    result o1 <> 0 /\ result o2 <> 0 /\
    disabled o1 = 0 /\ disabled o2 <> 0 /\
    Z.testbit (timeAdjustment o1) 31 = true /\
    Z.testbit (timeAdjustment o2) 31 = false /\
    timeAdjustment o1 = Z.lor (timeAdjustment o2) (2 ^ 31) /\
    timeIncrement o1 = timeIncrement o2 /\
    o1 <> o2 /\
    forall (OS : Type) (GSTA : OS -> AdjustmentOutcome * OS) (env cls : pointer)
           (s1 s1' s2 s2' : OS),
      GSTA s1 = (o1, s1') ->
      GSTA s2 = (o2, s2') ->
      fst (Java_javax_time_impl_WindowsSystemTime_getAdjustment GSTA env cls s1) =
      fst (Java_javax_time_impl_WindowsSystemTime_getAdjustment GSTA env cls s2).
Proof.
  exists outcome_large_enabled, outcome_small_disabled.
  assert (H1 : result outcome_large_enabled <> 0) by (cbn; discriminate).
  assert (H2 : result outcome_small_disabled <> 0) by (cbn; discriminate).
  unfold AdjustmentOutcome_ok, DWORD_ok.
  repeat match goal with |- _ /\ _ => split end;
    try exact H1; try exact H2; try reflexivity; try (cbn; lia); try discriminate.
  intros OS GSTA env cls s1 s1' s2 s2' Hos1 Hos2.
  rewrite (getAdjustment_success GSTA env cls s1 s1' _ Hos1 H1).
  rewrite (getAdjustment_success GSTA env cls s2 s2' _ Hos2 H2).
  cbn [fst outcome_large_enabled outcome_small_disabled timeAdjustment timeIncrement disabled].
  apply (pack_adjustment_overlap 0 5 1); unfold DWORD_ok; lia || discriminate.
Qed.

(** ** The two words of the packed value *)

(** The low word of the packed value is the increment. *)
Lemma pack_adjustment_low_word (A I : DWORD) (d : BOOL) :
  DWORD_ok A -> DWORD_ok I -> pack_adjustment A I d mod 2 ^ 32 = I.
Proof.
  intros HA HI. rewrite pack_adjustment_value by assumption.
  unfold DWORD_ok in HA, HI. symmetry.
  destruct (A <? 2 ^ 31); [destruct (truthy d) |].
  - apply Z.mod_unique with (q := A - 2 ^ 31); lia.
  - apply Z.mod_unique with (q := A); lia.
  - apply Z.mod_unique with (q := A - 2 ^ 32); lia.
Qed.

(** The high word of the packed value, for an adjustment below [2^31]. *)
Lemma pack_adjustment_high_word (A I : DWORD) (d : BOOL) :
  0 <= A < 2 ^ 31 -> DWORD_ok I ->
  pack_adjustment A I d / 2 ^ 32 = if truthy d then A - 2 ^ 31 else A.
Proof.
  intros HA HI. rewrite pack_adjustment_value by (unfold DWORD_ok in *; lia).
  unfold DWORD_ok in HI. symmetry.
  destruct (Z.ltb_spec A (2 ^ 31)); [| lia].
  destruct (truthy d).
  - apply Z.div_unique with (r := I); lia.
  - apply Z.div_unique with (r := I); lia.
Qed.

Lemma decode_increment_mod (t : Z) : decode_increment t = t mod 2 ^ 32.
Proof.
  unfold decode_increment.
  replace (2 ^ 32 - 1) with (Z.ones 32) by reflexivity.
  apply Z.land_ones. lia.
Qed.

Lemma decode_adjustment_mod (t : Z) : decode_adjustment t = (t / 2 ^ 32) mod 2 ^ 31.
Proof.
  unfold decode_adjustment.
  replace (2 ^ 31 - 1) with (Z.ones 31) by reflexivity.
  rewrite Z.land_ones, Z.shiftr_div_pow2 by lia. reflexivity.
Qed.

(** C9: on every successful outcome, bits 0 to 31 of the result are the bits
    of the increment, so that the low word of the result is the increment
    itself, and bits 32 to 62 are bits 0 to 30 of the adjustment: an
    increment with its top bit set leaves the high word as it is. *)
Theorem getAdjustment_increment_zero_extended {OS : Type}
    (GSTA : OS -> AdjustmentOutcome * OS)
    (env cls : pointer) (s s' : OS) (o : AdjustmentOutcome) :
  GSTA s = (o, s') ->
  AdjustmentOutcome_ok o ->
  result o <> 0 ->
  let t := fst (Java_javax_time_impl_WindowsSystemTime_getAdjustment GSTA env cls s) in
  (forall i, 0 <= i < 32 -> Z.testbit t i = Z.testbit (timeIncrement o) i) /\
  (forall i, 32 <= i < 63 -> Z.testbit t i = Z.testbit (timeAdjustment o) (i - 32)) /\
  Z.land t (2 ^ 32 - 1) = timeIncrement o.
Proof.
  intros Hos [HA HI] Hres t. subst t.
  rewrite (getAdjustment_success GSTA env cls s s' o Hos Hres). cbn [fst].
  split; [| split].
  - intros i Hi. rewrite pack_adjustment_testbit by (exact HI || lia).
    destruct (Z.ltb_spec i 32); [| lia].
    destruct (Z.eqb_spec i 63); [lia |].
    rewrite andb_false_r. apply orb_false_r.
  - intros i Hi. rewrite pack_adjustment_testbit by (exact HI || lia).
    destruct (Z.ltb_spec i 32); [lia |].
    destruct (Z.eqb_spec i 63); [lia |].
    rewrite andb_false_r. apply orb_false_r.
  - fold (decode_increment
            (pack_adjustment (timeAdjustment o) (timeIncrement o) (disabled o))).
    rewrite decode_increment_mod. apply pack_adjustment_low_word; assumption.
Qed.

Lemma getAdjustment_increment_zero_extended_all_ones :
  Z.land
    (fst (Java_javax_time_impl_WindowsSystemTime_getAdjustment
            mock_GetSystemTimeAdjustment 0 0
            (mock_adjusting (mkAdjustmentOutcome 1 1 (2 ^ 32 - 1) 0))))
    (2 ^ 32 - 1) = 2 ^ 32 - 1 /\
  Z.testbit
    (fst (Java_javax_time_impl_WindowsSystemTime_getAdjustment
            mock_GetSystemTimeAdjustment 0 0
            (mock_adjusting (mkAdjustmentOutcome 1 1 (2 ^ 32 - 1) 0))))
    33 = false.
Proof.
  pose proof (getAdjustment_increment_zero_extended mock_GetSystemTimeAdjustment 0 0
                (mock_adjusting (mkAdjustmentOutcome 1 1 (2 ^ 32 - 1) 0))
                (mock_adjusting (mkAdjustmentOutcome 1 1 (2 ^ 32 - 1) 0))
                (mkAdjustmentOutcome 1 1 (2 ^ 32 - 1) 0)) as H.
  cbv zeta in H.
  destruct H as (_ & Hhigh & Hlow).
  - reflexivity.
  - unfold AdjustmentOutcome_ok, DWORD_ok; cbn; lia.
  - cbn; discriminate.
  - split; [exact Hlow | apply (Hhigh 33); lia].
Defined.

(** ** Decoding below [2^31] *)

(** C10: on every successful outcome whose adjustment is below [2^31], the
    three fields are read back from the result: the flag from bit 63, the
    adjustment from bits 32 to 62, the increment from bits 0 to 31; hence two
    such outcomes with the same result have the same adjustment, the same
    increment and the same flag. *)
Theorem getAdjustment_roundtrip {OS : Type} (GSTA : OS -> AdjustmentOutcome * OS)
    (env cls : pointer) (s s' : OS) (o : AdjustmentOutcome) :
  GSTA s = (o, s') ->
  AdjustmentOutcome_ok o ->
  result o <> 0 ->
  timeAdjustment o < 2 ^ 31 ->
  let t := fst (Java_javax_time_impl_WindowsSystemTime_getAdjustment GSTA env cls s) in
  (decode_disabled t = truthy (disabled o) /\
   decode_adjustment t = timeAdjustment o /\
   decode_increment t = timeIncrement o) /\
  (forall (r r' : OS) (o' : AdjustmentOutcome),
     GSTA r = (o', r') ->
     AdjustmentOutcome_ok o' ->
     result o' <> 0 ->
     timeAdjustment o' < 2 ^ 31 ->
     fst (Java_javax_time_impl_WindowsSystemTime_getAdjustment GSTA env cls r) = t ->
     timeAdjustment o' = timeAdjustment o /\
     timeIncrement o' = timeIncrement o /\
     truthy (disabled o') = truthy (disabled o)).
Proof.
  assert (Hdecode : forall (q q' : OS) (p : AdjustmentOutcome),
    GSTA q = (p, q') -> AdjustmentOutcome_ok p -> result p <> 0 ->
    timeAdjustment p < 2 ^ 31 ->
    decode_disabled
      (fst (Java_javax_time_impl_WindowsSystemTime_getAdjustment GSTA env cls q))
      = truthy (disabled p) /\
    decode_adjustment
      (fst (Java_javax_time_impl_WindowsSystemTime_getAdjustment GSTA env cls q))
      = timeAdjustment p /\
    decode_increment
      (fst (Java_javax_time_impl_WindowsSystemTime_getAdjustment GSTA env cls q))
      = timeIncrement p).
  { intros q q' p Hq [HA HI] Hres Hlow.
    rewrite (getAdjustment_success GSTA env cls q q' p Hq Hres). cbn [fst].
    assert (HA' : 0 <= timeAdjustment p < 2 ^ 31) by (unfold DWORD_ok in HA; lia).
    split; [| split].
    - unfold decode_disabled.
      rewrite pack_adjustment_testbit by (exact HI || lia).
      change (63 <? 32) with false. change (63 =? 63) with true.
      change (63 - 32) with 31.
      rewrite (testbit_above (timeAdjustment p) 31 31) by lia.
      rewrite andb_true_r. reflexivity.
    - rewrite decode_adjustment_mod, pack_adjustment_high_word by assumption.
      symmetry. destruct (truthy (disabled p)).
      + apply Z.mod_unique with (q := -1); lia.
      + apply Z.mod_unique with (q := 0); lia.
    - rewrite decode_increment_mod. apply pack_adjustment_low_word; assumption. }
  intros Hos Hwf Hres Hlow t. subst t.
  split.
  - exact (Hdecode s s' o Hos Hwf Hres Hlow).
  - intros r r' o' Hor Hwf' Hres' Hlow' Heq.
    destruct (Hdecode s s' o Hos Hwf Hres Hlow) as (Hd & Ha & Hi).
    destruct (Hdecode r r' o' Hor Hwf' Hres' Hlow') as (Hd' & Ha' & Hi').
    rewrite Heq in Hd', Ha', Hi'.
    repeat split; congruence.
Qed.

Lemma getAdjustment_roundtrip_typical :
  decode_disabled
    (fst (Java_javax_time_impl_WindowsSystemTime_getAdjustment
            mock_GetSystemTimeAdjustment 0 0 (mock_adjusting outcome_typical))) = false /\
  decode_adjustment
    (fst (Java_javax_time_impl_WindowsSystemTime_getAdjustment
            mock_GetSystemTimeAdjustment 0 0 (mock_adjusting outcome_typical))) = 156250 /\
  decode_increment
    (fst (Java_javax_time_impl_WindowsSystemTime_getAdjustment
            mock_GetSystemTimeAdjustment 0 0 (mock_adjusting outcome_typical))) = 156250.
Proof.
  pose proof (getAdjustment_roundtrip mock_GetSystemTimeAdjustment 0 0
                (mock_adjusting outcome_typical) (mock_adjusting outcome_typical)
                outcome_typical) as H.
  cbv zeta in H.
  destruct H as [Hdecode _].
  - reflexivity.
  - unfold AdjustmentOutcome_ok, DWORD_ok; cbn; lia.
  - cbn; discriminate.
  - cbn; lia.
  - exact Hdecode.
Defined.

(** ** Loading *)

(** C6: [JNI_OnLoad] returns the version constant for all arguments and in
    every state of the operating system, and leaves that state as it found
    it: it queries nothing and sets nothing up. *)
Theorem JNI_OnLoad_returns_version :
  forall (OS : Type) (JNI_VERSION_1_2 : jint) (vm reserved : pointer) (s : OS),
    JNI_OnLoad JNI_VERSION_1_2 vm reserved s = (JNI_VERSION_1_2, s).
Proof. intros OS v vm reserved s. reflexivity. Qed.

(** ** Reading the clock *)

Lemma get_run {OS : Type} (GSTAFT : OS -> FILETIME * OS)
    (env cls : pointer) (s : OS) :
  Java_javax_time_impl_WindowsSystemTime_get GSTAFT env cls s =
    (time64 (store_fileTime (fst (GSTAFT s))), snd (GSTAFT s)).
Proof.
  unfold Java_javax_time_impl_WindowsSystemTime_get, bind.
  destruct (GSTAFT s) as [ft s']. reflexivity.
Qed.

Lemma ticks_range (ft : FILETIME) : FILETIME_ok ft -> 0 <= ticks ft < 2 ^ 64.
Proof. unfold FILETIME_ok, DWORD_ok, ticks. lia. Qed.

(** The eight bytes of the union spell the tick count. *)
Lemma store_fileTime_bits (ft : FILETIME) :
  FILETIME_ok ft -> union_bits (store_fileTime ft) = ticks ft.
Proof.
  intros [Hlow Hhigh]. unfold store_fileTime, ticks. cbn [union_bits].
  rewrite lor_words by exact Hlow. lia.
Qed.

(** C7: in every state of the operating system [get] returns, and what it
    returns is the 64-bit pattern the OS wrote into the [FILETIME]: bits 0
    to 31 are the low word, bits 32 to 63 the high word, and the value read
    modulo [2^64] is the tick count. *)
Theorem get_returns_raw_ticks {OS : Type} (GSTAFT : OS -> FILETIME * OS)
    (env cls : pointer) (s s' : OS) (ft : FILETIME) :
  GSTAFT s = (ft, s') ->
  FILETIME_ok ft ->
  let t := fst (Java_javax_time_impl_WindowsSystemTime_get GSTAFT env cls s) in
  Java_javax_time_impl_WindowsSystemTime_get GSTAFT env cls s = (t, s') /\
  t = to_jlong (ticks ft) /\
  t mod 2 ^ 64 = ticks ft /\
  (forall i, 0 <= i < 32 -> Z.testbit t i = Z.testbit (dwLowDateTime ft) i) /\
  (forall i, 32 <= i < 64 -> Z.testbit t i = Z.testbit (dwHighDateTime ft) (i - 32)).
Proof.
  intros Hos Hwf t. subst t.
  rewrite get_run, Hos. cbn [fst snd].
  unfold time64.
  split; [reflexivity | split; [| split; [| split]]].
  - rewrite store_fileTime_bits by exact Hwf. reflexivity.
  - rewrite to_jlong_mod, store_fileTime_bits by exact Hwf.
    apply Z.mod_small, ticks_range, Hwf.
  - intros i Hi. destruct Hwf as [Hlow Hhigh].
    rewrite to_jlong_testbit by lia.
    unfold store_fileTime. cbn [union_bits].
    rewrite Z.lor_spec, Z.shiftl_spec_low by lia. reflexivity.
  - intros i Hi. destruct Hwf as [Hlow Hhigh].
    rewrite to_jlong_testbit by lia.
    unfold store_fileTime. cbn [union_bits].
    rewrite Z.lor_spec, Z.shiftl_spec by lia.
    rewrite (testbit_above (dwLowDateTime ft) 32 i) by (unfold DWORD_ok in Hlow; lia).
    apply orb_false_r.
Qed.

Lemma get_returns_raw_ticks_at_sign :
  Java_javax_time_impl_WindowsSystemTime_get mock_GetSystemTimeAsFileTime 0 0
    (mock_ticking [filetime_at_sign] filetime_at_sign)
  = (- 2 ^ 63,
     snd (mock_GetSystemTimeAsFileTime (mock_ticking [filetime_at_sign] filetime_at_sign))) /\
  (- 2 ^ 63) mod 2 ^ 64 = ticks filetime_at_sign.
Proof.
  pose proof (get_returns_raw_ticks mock_GetSystemTimeAsFileTime 0 0
                (mock_ticking [filetime_at_sign] filetime_at_sign)
                (snd (mock_GetSystemTimeAsFileTime
                        (mock_ticking [filetime_at_sign] filetime_at_sign)))
                filetime_at_sign) as H.
  cbv zeta in H.
  destruct H as (Hrun & _ & Hmod & _).
  - reflexivity.
  - unfold FILETIME_ok, DWORD_ok; cbn; lia.
  - split; [exact Hrun | exact Hmod].
Defined.

(** ** Consecutive readings *)

(** The calls of [get] see the readings of the clock one by one. *)
Lemma consecutive_gets_readings {OS : Type} (GSTAFT : OS -> FILETIME * OS)
    (env cls : pointer) (n : nat) :
  forall s : OS,
    consecutive_gets GSTAFT env cls n s =
      (map (fun ft => time64 (store_fileTime ft)) (fst (clock_readings GSTAFT n s)),
       snd (clock_readings GSTAFT n s)).
Proof.
  induction n as [| k IH]; intros s.
  - reflexivity.
  - cbn [consecutive_gets clock_readings]. unfold bind, ret.
    rewrite get_run.
    destruct (GSTAFT s) as [ft s1]. cbn [fst snd].
    rewrite IH.
    destruct (clock_readings GSTAFT k s1) as [fts s2]. reflexivity.
Qed.

(** Below [2^63] the value of [get] is the tick count itself. *)
Lemma time64_below_sign (ft : FILETIME) :
  FILETIME_ok ft -> ticks ft < 2 ^ 63 -> time64 (store_fileTime ft) = ticks ft.
Proof.
  intros Hwf Hlt. unfold time64. rewrite store_fileTime_bits by exact Hwf.
  apply to_jlong_small. pose proof (ticks_range ft Hwf). lia.
Qed.

(** Ordered as unsigned tick counts, the readings [2^63 - 1] and [2^63] are
    non-decreasing; the two calls of [get] return [2^63 - 1] and then
    [- 2^63], the second reading being negative as a signed number. *)
Lemma get_decreases_across_sign :
  Forall FILETIME_ok
    (fst (clock_readings mock_GetSystemTimeAsFileTime 2
            (mock_ticking [filetime_below_sign; filetime_at_sign] filetime_at_sign))) /\
  map ticks
    (fst (clock_readings mock_GetSystemTimeAsFileTime 2
            (mock_ticking [filetime_below_sign; filetime_at_sign] filetime_at_sign)))
    = [2 ^ 63 - 1; 2 ^ 63] /\
  Sorted Z.le
    (map ticks
       (fst (clock_readings mock_GetSystemTimeAsFileTime 2
               (mock_ticking [filetime_below_sign; filetime_at_sign] filetime_at_sign)))) /\
  fst (consecutive_gets mock_GetSystemTimeAsFileTime 0 0 2
         (mock_ticking [filetime_below_sign; filetime_at_sign] filetime_at_sign))
    = [2 ^ 63 - 1; - 2 ^ 63] /\
  ~ Sorted Z.le
      (fst (consecutive_gets mock_GetSystemTimeAsFileTime 0 0 2
              (mock_ticking [filetime_below_sign; filetime_at_sign] filetime_at_sign))).
Proof.
  split; [| split; [| split; [| split]]].
  - repeat constructor; cbn; lia.
  - reflexivity.
  - repeat constructor. cbn. lia.
  - reflexivity.
  - intros Hsorted.
    change (Sorted Z.le [2 ^ 63 - 1; - 2 ^ 63]) in Hsorted.
    apply Sorted_inv in Hsorted. destruct Hsorted as [_ Hhd].
    apply HdRel_inv in Hhd. lia.
Qed.

(** While the unsigned tick counts stay below [2^63] they are the signed
    values, and consecutive calls of [get] on non-decreasing tick counts
    return a non-decreasing sequence. *)
Theorem get_monotone_below_sign {OS : Type} (GSTAFT : OS -> FILETIME * OS)
    (env cls : pointer) (n : nat) (s : OS) :
  Forall FILETIME_ok (fst (clock_readings GSTAFT n s)) ->
  Forall (fun ft => ticks ft < 2 ^ 63) (fst (clock_readings GSTAFT n s)) ->
  Sorted Z.le (map ticks (fst (clock_readings GSTAFT n s))) ->
  Sorted Z.le (fst (consecutive_gets GSTAFT env cls n s)).
Proof.
  intros Hwf Hlow Hsorted.
  rewrite consecutive_gets_readings. cbn [fst].
  rewrite (map_ext_in _ ticks); [exact Hsorted |].
  intros ft Hin.
  rewrite Forall_forall in Hwf, Hlow.
  apply time64_below_sign; [apply Hwf | apply Hlow]; exact Hin.
Qed.

Lemma get_monotone_below_sign_three_calls :
  Sorted Z.le
    (fst (consecutive_gets mock_GetSystemTimeAsFileTime 0 0 3
            (mock_ticking [mkFILETIME (2 ^ 32 - 1) 7; mkFILETIME 0 8] (mkFILETIME 0 8)))).
Proof.
  apply (get_monotone_below_sign mock_GetSystemTimeAsFileTime 0 0 3
           (mock_ticking [mkFILETIME (2 ^ 32 - 1) 7; mkFILETIME 0 8] (mkFILETIME 0 8))).
  - repeat constructor; cbn; lia.
  - repeat constructor; cbn; lia.
  - repeat constructor; cbn; lia.
Defined.

(** ** Runs on the scripted operating system *)

Example getAdjustment_run_typical :
  Java_javax_time_impl_WindowsSystemTime_getAdjustment
    mock_GetSystemTimeAdjustment 0 0 (mock_adjusting outcome_typical)
  = (671088640156250, mock_adjusting outcome_typical).
Proof. reflexivity. Qed.

Example getAdjustment_run_small_disabled :
  fst (Java_javax_time_impl_WindowsSystemTime_getAdjustment
         mock_GetSystemTimeAdjustment 0 0 (mock_adjusting outcome_small_disabled))
  = 5 - 2 ^ 63.
Proof. reflexivity. Qed.

Example getAdjustment_run_all_ones :
  fst (Java_javax_time_impl_WindowsSystemTime_getAdjustment
         mock_GetSystemTimeAdjustment 0 0 (mock_adjusting outcome_all_ones))
  = -1.
Proof. reflexivity. Qed.

Example getAdjustment_run_failure :
  Java_javax_time_impl_WindowsSystemTime_getAdjustment
    mock_GetSystemTimeAdjustment 0 0 (mock_adjusting outcome_failure)
  = (-1, mock_adjusting outcome_failure).
Proof. reflexivity. Qed.

Example consecutive_gets_run :
  fst (consecutive_gets mock_GetSystemTimeAsFileTime 0 0 3
         (mock_ticking [mkFILETIME 10 0; mkFILETIME 0 1] (mkFILETIME 1 1)))
  = [10; 2 ^ 32; 2 ^ 32 + 1].
Proof. reflexivity. Qed.

(** ** The value of [get] as a number *)

(** Reading the union back as [jlong]: the tick count, less [2^64] once the
    high word has its top bit set. *)
Lemma time64_value (ft : FILETIME) :
  FILETIME_ok ft ->
  time64 (store_fileTime ft) =
    ticks ft - (if dwHighDateTime ft <? 2 ^ 31 then 0 else 2 ^ 64).
Proof.
  intros Hwf. unfold time64. rewrite store_fileTime_bits by exact Hwf.
  destruct Hwf as [Hlow Hhigh]. unfold DWORD_ok in Hlow, Hhigh. unfold ticks.
  destruct (Z.ltb_spec (dwHighDateTime ft) (2 ^ 31)).
  - rewrite to_jlong_small by lia. lia.
  - unfold to_jlong.
    replace ((dwLowDateTime ft + dwHighDateTime ft * 2 ^ 32 + 2 ^ 63) mod 2 ^ 64)
      with (dwLowDateTime ft + dwHighDateTime ft * 2 ^ 32 + 2 ^ 63 - 2 ^ 64)
      by (apply Z.mod_unique with (q := 1); lia).
    lia.
Qed.

(** X1: the value [get] returns is the tick count of the reading while the
    high word is below [2^31], and the tick count less [2^64] from there on;
    so the result is negative exactly when the top bit of the high word is
    set, and it always lies in the signed 64-bit range. *)
Theorem get_value_and_sign {OS : Type} (GSTAFT : OS -> FILETIME * OS)
    (env cls : pointer) (s s' : OS) (ft : FILETIME) :
  GSTAFT s = (ft, s') ->
  FILETIME_ok ft ->
  let t := fst (Java_javax_time_impl_WindowsSystemTime_get GSTAFT env cls s) in
  t = ticks ft - (if dwHighDateTime ft <? 2 ^ 31 then 0 else 2 ^ 64) /\
  (t < 0 <-> 2 ^ 31 <= dwHighDateTime ft) /\
  - 2 ^ 63 <= t < 2 ^ 63.
Proof.
  intros Hos Hwf t. subst t.
  rewrite get_run, Hos. cbn [fst].
  rewrite time64_value by exact Hwf.
  destruct Hwf as [Hlow Hhigh]. unfold DWORD_ok in Hlow, Hhigh. unfold ticks.
  destruct (Z.ltb_spec (dwHighDateTime ft) (2 ^ 31)); lia.
Qed.

Lemma get_value_and_sign_at_sign :
  fst (Java_javax_time_impl_WindowsSystemTime_get mock_GetSystemTimeAsFileTime 0 0
         (mock_ticking [filetime_at_sign] filetime_at_sign))
  = ticks filetime_at_sign - 2 ^ 64.
Proof.
  pose proof (get_value_and_sign mock_GetSystemTimeAsFileTime 0 0
                (mock_ticking [filetime_at_sign] filetime_at_sign)
                (snd (mock_GetSystemTimeAsFileTime
                        (mock_ticking [filetime_at_sign] filetime_at_sign)))
                filetime_at_sign) as H.
  cbv zeta in H.
  destruct H as (Hval & _ & _).
  - reflexivity.
  - unfold FILETIME_ok, DWORD_ok; cbn; lia.
  - exact Hval.
Defined.

(** X2: the reading is recovered from the value of [get]: the low word is
    the result masked with [0xFFFFFFFF], the high word is the result shifted
    right by 32 and masked; hence two readings on which [get] returns the
    same value are the same reading. *)
Theorem get_roundtrip {OS : Type} (GSTAFT : OS -> FILETIME * OS)
    (env cls : pointer) (s s' : OS) (ft : FILETIME) :
  GSTAFT s = (ft, s') ->
  FILETIME_ok ft ->
  let t := fst (Java_javax_time_impl_WindowsSystemTime_get GSTAFT env cls s) in
  Z.land t (2 ^ 32 - 1) = dwLowDateTime ft /\
  Z.land (Z.shiftr t 32) (2 ^ 32 - 1) = dwHighDateTime ft /\
  (forall (r r' : OS) (ft' : FILETIME),
     GSTAFT r = (ft', r') ->
     FILETIME_ok ft' ->
     fst (Java_javax_time_impl_WindowsSystemTime_get GSTAFT env cls r) = t ->
     ft' = ft).
Proof.
  assert (Hwords : forall (q q' : OS) (f : FILETIME),
    GSTAFT q = (f, q') -> FILETIME_ok f ->
    Z.land (fst (Java_javax_time_impl_WindowsSystemTime_get GSTAFT env cls q))
           (2 ^ 32 - 1) = dwLowDateTime f /\
    Z.land (Z.shiftr (fst (Java_javax_time_impl_WindowsSystemTime_get GSTAFT env cls q)) 32)
           (2 ^ 32 - 1) = dwHighDateTime f).
  { intros q q' f Hq Hwf.
    rewrite get_run, Hq. cbn [fst].
    rewrite time64_value by exact Hwf.
    destruct Hwf as [Hlow Hhigh]. unfold DWORD_ok in Hlow, Hhigh. unfold ticks.
    replace (2 ^ 32 - 1) with (Z.ones 32) by reflexivity.
    rewrite !Z.land_ones, Z.shiftr_div_pow2 by lia.
    destruct (dwHighDateTime f <? 2 ^ 31).
    - assert (Hdiv : (dwLowDateTime f + dwHighDateTime f * 2 ^ 32 - 0) / 2 ^ 32
                     = dwHighDateTime f)
        by (symmetry; apply Z.div_unique with (r := dwLowDateTime f); lia).
      rewrite Hdiv. split; symmetry.
      + apply Z.mod_unique with (q := dwHighDateTime f); lia.
      + apply Z.mod_unique with (q := 0); lia.
    - assert (Hdiv : (dwLowDateTime f + dwHighDateTime f * 2 ^ 32 - 2 ^ 64) / 2 ^ 32
                     = dwHighDateTime f - 2 ^ 32)
        by (symmetry; apply Z.div_unique with (r := dwLowDateTime f); lia).
      rewrite Hdiv. split; symmetry.
      + apply Z.mod_unique with (q := dwHighDateTime f - 2 ^ 32); lia.
      + apply Z.mod_unique with (q := -1); lia. }
  intros Hos Hwf t. subst t.
  destruct (Hwords s s' ft Hos Hwf) as [Hlow Hhigh].
  split; [exact Hlow | split; [exact Hhigh |]].
  intros r r' ft' Hor Hwf' Heq.
  destruct (Hwords r r' ft' Hor Hwf') as [Hlow' Hhigh'].
  rewrite Heq in Hlow', Hhigh'.
  destruct ft as [l h], ft' as [l' h']. cbn in *. congruence.
Qed.

Lemma get_roundtrip_at_sign :
  Z.land
    (fst (Java_javax_time_impl_WindowsSystemTime_get mock_GetSystemTimeAsFileTime 0 0
            (mock_ticking [filetime_at_sign] filetime_at_sign)))
    (2 ^ 32 - 1) = 0 /\
  Z.land
    (Z.shiftr
       (fst (Java_javax_time_impl_WindowsSystemTime_get mock_GetSystemTimeAsFileTime 0 0
               (mock_ticking [filetime_at_sign] filetime_at_sign))) 32)
    (2 ^ 32 - 1) = 2 ^ 31.
Proof.
  pose proof (get_roundtrip mock_GetSystemTimeAsFileTime 0 0
                (mock_ticking [filetime_at_sign] filetime_at_sign)
                (snd (mock_GetSystemTimeAsFileTime
                        (mock_ticking [filetime_at_sign] filetime_at_sign)))
                filetime_at_sign) as H.
  cbv zeta in H.
  destruct H as (Hlow & Hhigh & _).
  - reflexivity.
  - unfold FILETIME_ok, DWORD_ok; cbn; lia.
  - split; [exact Hlow | exact Hhigh].
Defined.

(** X3: how two values of [get] compare.  When the high words of the two
    readings are on the same side of [2^31], the values compare as the tick
    counts do; when the first is below [2^31] and the second is not, the
    first reading is the earlier one and its value is the greater one. *)
Theorem get_order {OS : Type} (GSTAFT : OS -> FILETIME * OS)
    (env cls : pointer) (s1 s1' s2 s2' : OS) (ft1 ft2 : FILETIME) :
  GSTAFT s1 = (ft1, s1') ->
  GSTAFT s2 = (ft2, s2') ->
  FILETIME_ok ft1 ->
  FILETIME_ok ft2 ->
  let t1 := fst (Java_javax_time_impl_WindowsSystemTime_get GSTAFT env cls s1) in
  let t2 := fst (Java_javax_time_impl_WindowsSystemTime_get GSTAFT env cls s2) in
  ((dwHighDateTime ft1 <? 2 ^ 31) = (dwHighDateTime ft2 <? 2 ^ 31) ->
   (t1 <= t2 <-> ticks ft1 <= ticks ft2)) /\
  (dwHighDateTime ft1 < 2 ^ 31 <= dwHighDateTime ft2 ->
   ticks ft1 < ticks ft2 /\ t2 < t1).
Proof.
  intros Hos1 Hos2 Hwf1 Hwf2 t1 t2. subst t1 t2.
  rewrite !get_run, Hos1, Hos2. cbn [fst].
  rewrite !time64_value by assumption.
  destruct Hwf1 as [Hl1 Hh1], Hwf2 as [Hl2 Hh2].
  unfold DWORD_ok in Hl1, Hh1, Hl2, Hh2. unfold ticks.
  split.
  - intros Hside. rewrite Hside.
    destruct (dwHighDateTime ft2 <? 2 ^ 31); lia.
  - intros Hacross.
    destruct (Z.ltb_spec (dwHighDateTime ft1) (2 ^ 31));
      destruct (Z.ltb_spec (dwHighDateTime ft2) (2 ^ 31)); lia.
Qed.

Lemma get_order_same_side :
  fst (Java_javax_time_impl_WindowsSystemTime_get mock_GetSystemTimeAsFileTime 0 0
         (mock_ticking [mkFILETIME (2 ^ 32 - 1) 7] (mkFILETIME 0 8)))
  <= fst (Java_javax_time_impl_WindowsSystemTime_get mock_GetSystemTimeAsFileTime 0 0
            (mock_ticking [mkFILETIME 0 8] (mkFILETIME 0 8))).
Proof.
  pose proof (get_order mock_GetSystemTimeAsFileTime 0 0
                (mock_ticking [mkFILETIME (2 ^ 32 - 1) 7] (mkFILETIME 0 8))
                (snd (mock_GetSystemTimeAsFileTime
                        (mock_ticking [mkFILETIME (2 ^ 32 - 1) 7] (mkFILETIME 0 8))))
                (mock_ticking [mkFILETIME 0 8] (mkFILETIME 0 8))
                (snd (mock_GetSystemTimeAsFileTime
                        (mock_ticking [mkFILETIME 0 8] (mkFILETIME 0 8))))
                (mkFILETIME (2 ^ 32 - 1) 7) (mkFILETIME 0 8)) as H.
  cbv zeta in H.
  destruct H as [Hsame _].
  - reflexivity.
  - reflexivity.
  - unfold FILETIME_ok, DWORD_ok; cbn; lia.
  - unfold FILETIME_ok, DWORD_ok; cbn; lia.
  - apply Hsame; [reflexivity | cbn; lia].
Defined.

(** ** The value of [getAdjustment] as a number *)

(** X4: on every successful outcome the result is the number
    [A * 2^32 + I], less [2^63] when the flag is set and [A] is below
    [2^31], less [2^64] when [A] is not below [2^31], whatever the flag;
    it always lies in the signed 64-bit range. *)
Theorem getAdjustment_value {OS : Type} (GSTA : OS -> AdjustmentOutcome * OS)
    (env cls : pointer) (s s' : OS) (o : AdjustmentOutcome) :
  GSTA s = (o, s') ->
  AdjustmentOutcome_ok o ->
  result o <> 0 ->
  let t := fst (Java_javax_time_impl_WindowsSystemTime_getAdjustment GSTA env cls s) in
  t = timeAdjustment o * 2 ^ 32 + timeIncrement o
      - (if timeAdjustment o <? 2 ^ 31
         then (if truthy (disabled o) then 2 ^ 63 else 0)
         else 2 ^ 64) /\
  - 2 ^ 63 <= t < 2 ^ 63.
Proof.
  intros Hos [HA HI] Hres t. subst t.
  rewrite (getAdjustment_success GSTA env cls s s' o Hos Hres). cbn [fst].
  split.
  - apply pack_adjustment_value; assumption.
  - apply pack_adjustment_range; assumption.
Qed.

Lemma getAdjustment_value_small_disabled :
  fst (Java_javax_time_impl_WindowsSystemTime_getAdjustment
         mock_GetSystemTimeAdjustment 0 0 (mock_adjusting outcome_small_disabled))
  = 0 * 2 ^ 32 + 5 - 2 ^ 63.
Proof.
  pose proof (getAdjustment_value mock_GetSystemTimeAdjustment 0 0
                (mock_adjusting outcome_small_disabled)
                (mock_adjusting outcome_small_disabled)
                outcome_small_disabled) as H.
  cbv zeta in H.
  destruct H as [Hval _].
  - reflexivity.
  - unfold AdjustmentOutcome_ok, DWORD_ok; cbn; lia.
  - cbn; discriminate.
  - exact Hval.
Defined.

(** X5: the result is non-negative exactly when the call succeeded, the
    flag is clear and the adjustment is below [2^31]; a failed call, a set
    flag and an adjustment from [2^31] on all give a negative result. *)
Theorem getAdjustment_nonnegative {OS : Type} (GSTA : OS -> AdjustmentOutcome * OS)
    (env cls : pointer) (s s' : OS) (o : AdjustmentOutcome) :
  GSTA s = (o, s') ->
  AdjustmentOutcome_ok o ->
  (0 <= fst (Java_javax_time_impl_WindowsSystemTime_getAdjustment GSTA env cls s) <->
   result o <> 0 /\ disabled o = 0 /\ timeAdjustment o < 2 ^ 31).
Proof.
  intros Hos [HA HI].
  destruct (Z.eq_dec (result o) 0) as [Hfail | Hok].
  - rewrite (getAdjustment_failure GSTA env cls s s' o Hos Hfail). cbn [fst].
    split; [lia | intros [Hres _]; contradiction].
  - rewrite (getAdjustment_success GSTA env cls s s' o Hos Hok). cbn [fst].
    rewrite pack_adjustment_value by assumption.
    unfold DWORD_ok in HA, HI. unfold truthy.
    destruct (Z.ltb_spec (timeAdjustment o) (2 ^ 31));
      destruct (Z.eqb_spec (disabled o) 0); cbn [negb];
      (split; [intros Hnn | intros (_ & Hd & Hlow)]); try lia; auto.
Qed.

Lemma getAdjustment_nonnegative_typical :
  0 <= fst (Java_javax_time_impl_WindowsSystemTime_getAdjustment
              mock_GetSystemTimeAdjustment 0 0 (mock_adjusting outcome_typical)).
Proof.
  apply (getAdjustment_nonnegative mock_GetSystemTimeAdjustment 0 0
           (mock_adjusting outcome_typical) (mock_adjusting outcome_typical)
           outcome_typical).
  - reflexivity.
  - unfold AdjustmentOutcome_ok, DWORD_ok; cbn; lia.
  - repeat split; cbn; lia || discriminate.
Defined.

(** X6: on every successful outcome the high word of the result (the result
    shifted right by 32 and masked with [0xFFFFFFFF]) is the adjustment
    with bit 31 OR-ed in when the flag is set, and the adjustment itself
    when the flag is clear. *)
Theorem getAdjustment_high_word {OS : Type} (GSTA : OS -> AdjustmentOutcome * OS)
    (env cls : pointer) (s s' : OS) (o : AdjustmentOutcome) :
  GSTA s = (o, s') ->
  AdjustmentOutcome_ok o ->
  result o <> 0 ->
  Z.land
    (Z.shiftr (fst (Java_javax_time_impl_WindowsSystemTime_getAdjustment GSTA env cls s)) 32)
    (2 ^ 32 - 1)
  = Z.lor (timeAdjustment o) (if truthy (disabled o) then 2 ^ 31 else 0).
Proof.
  intros Hos [HA HI] Hres.
  rewrite (getAdjustment_success GSTA env cls s s' o Hos Hres). cbn [fst].
  replace (2 ^ 32 - 1) with (Z.ones 32) by reflexivity.
  apply Z.bits_inj'. intros i Hi.
  rewrite Z.land_spec, Z.lor_spec, Z.shiftr_spec by exact Hi.
  destruct (Z.lt_ge_cases i 32) as [Hlt | Hge].
  - rewrite Z.ones_spec_low, andb_true_r by lia.
    rewrite pack_adjustment_testbit by (exact HI || lia).
    destruct (Z.ltb_spec (i + 32) 32); [lia |].
    replace (i + 32 - 32) with i by lia.
    f_equal.
    destruct (truthy (disabled o)).
    + rewrite Z.pow2_bits_eqb by lia. cbn [andb].
      destruct (Z.eqb_spec (i + 32) 63); destruct (Z.eqb_spec 31 i); lia || reflexivity.
    + rewrite Z.bits_0. reflexivity.
  - rewrite Z.ones_spec_high, andb_false_r by lia.
    rewrite (testbit_above (timeAdjustment o) 32 i) by (unfold DWORD_ok in HA; lia).
    destruct (truthy (disabled o)).
    + rewrite Z.pow2_bits_eqb by lia.
      destruct (Z.eqb_spec 31 i); [lia | reflexivity].
    + rewrite Z.bits_0. reflexivity.
Qed.

Lemma getAdjustment_high_word_small_disabled :
  Z.land
    (Z.shiftr
       (fst (Java_javax_time_impl_WindowsSystemTime_getAdjustment
               mock_GetSystemTimeAdjustment 0 0
               (mock_adjusting (mkAdjustmentOutcome 1 3 5 1)))) 32)
    (2 ^ 32 - 1)
  = Z.lor 3 (2 ^ 31).
Proof.
  apply (getAdjustment_high_word mock_GetSystemTimeAdjustment 0 0
           (mock_adjusting (mkAdjustmentOutcome 1 3 5 1))
           (mock_adjusting (mkAdjustmentOutcome 1 3 5 1))
           (mkAdjustmentOutcome 1 3 5 1)).
  - reflexivity.
  - unfold AdjustmentOutcome_ok, DWORD_ok; cbn; lia.
  - cbn; discriminate.
Defined.

(** ** Which outcomes share a result *)

(** The adjustment without its top bit. *)
Lemma DWORD_low31 (A : DWORD) :
  DWORD_ok A -> A mod 2 ^ 31 = A - (if A <? 2 ^ 31 then 0 else 2 ^ 31).
Proof.
  unfold DWORD_ok. intros HA. symmetry.
  destruct (Z.ltb_spec A (2 ^ 31)).
  - apply Z.mod_unique with (q := 0); lia.
  - apply Z.mod_unique with (q := 1); lia.
Qed.

(** X7: two successful outcomes give the same result exactly when their
    increments are equal, their adjustments agree on bits 0 to 30, and
    "flag set or bit 31 of the adjustment set" has the same truth value in
    both. *)
Theorem getAdjustment_same_result {OS : Type} (GSTA : OS -> AdjustmentOutcome * OS)
    (env cls : pointer) (s1 s1' s2 s2' : OS) (o1 o2 : AdjustmentOutcome) :
  GSTA s1 = (o1, s1') ->
  GSTA s2 = (o2, s2') ->
  AdjustmentOutcome_ok o1 ->
  AdjustmentOutcome_ok o2 ->
  result o1 <> 0 ->
  result o2 <> 0 ->
  (fst (Java_javax_time_impl_WindowsSystemTime_getAdjustment GSTA env cls s1) =
   fst (Java_javax_time_impl_WindowsSystemTime_getAdjustment GSTA env cls s2)
   <->
   timeIncrement o1 = timeIncrement o2 /\
   timeAdjustment o1 mod 2 ^ 31 = timeAdjustment o2 mod 2 ^ 31 /\
   truthy (disabled o1) || negb (timeAdjustment o1 <? 2 ^ 31) =
   truthy (disabled o2) || negb (timeAdjustment o2 <? 2 ^ 31)).
Proof.
  intros Hos1 Hos2 [HA1 HI1] [HA2 HI2] Hres1 Hres2.
  rewrite (getAdjustment_success GSTA env cls s1 s1' o1 Hos1 Hres1).
  rewrite (getAdjustment_success GSTA env cls s2 s2' o2 Hos2 Hres2).
  cbn [fst].
  rewrite !pack_adjustment_value by assumption.
  rewrite !DWORD_low31 by assumption.
  unfold DWORD_ok in HA1, HI1, HA2, HI2.
  destruct (Z.ltb_spec (timeAdjustment o1) (2 ^ 31));
    destruct (Z.ltb_spec (timeAdjustment o2) (2 ^ 31));
    destruct (truthy (disabled o1)); destruct (truthy (disabled o2));
    cbn [orb negb];
    (split; [intros Heq; repeat split; try lia; try reflexivity
            | intros (HI & HA & Hflag); try discriminate Hflag; try lia]).
Qed.

Lemma getAdjustment_same_result_overlap :
  fst (Java_javax_time_impl_WindowsSystemTime_getAdjustment
         mock_GetSystemTimeAdjustment 0 0 (mock_adjusting outcome_large_enabled)) =
  fst (Java_javax_time_impl_WindowsSystemTime_getAdjustment
         mock_GetSystemTimeAdjustment 0 0 (mock_adjusting outcome_small_disabled)).
Proof.
  apply (getAdjustment_same_result mock_GetSystemTimeAdjustment 0 0
           (mock_adjusting outcome_large_enabled) (mock_adjusting outcome_large_enabled)
           (mock_adjusting outcome_small_disabled) (mock_adjusting outcome_small_disabled)
           outcome_large_enabled outcome_small_disabled).
  - reflexivity.
  - reflexivity.
  - unfold AdjustmentOutcome_ok, DWORD_ok; cbn; lia.
  - unfold AdjustmentOutcome_ok, DWORD_ok; cbn; lia.
  - cbn; discriminate.
  - cbn; discriminate.
  - repeat split.
Defined.

(** X8: when the increment the OS reports is not [2^32 - 1], the result is
    [-1] exactly when the call failed. *)
Theorem getAdjustment_sentinel_unambiguous {OS : Type}
    (GSTA : OS -> AdjustmentOutcome * OS)
    (env cls : pointer) (s s' : OS) (o : AdjustmentOutcome) :
  GSTA s = (o, s') ->
  AdjustmentOutcome_ok o ->
  timeIncrement o <> 2 ^ 32 - 1 ->
  (fst (Java_javax_time_impl_WindowsSystemTime_getAdjustment GSTA env cls s) = -1 <->
   result o = 0).
Proof.
  intros Hos [HA HI] Hinc.
  destruct (Z.eq_dec (result o) 0) as [Hfail | Hok].
  - rewrite (getAdjustment_failure GSTA env cls s s' o Hos Hfail). cbn [fst].
    split; auto.
  - rewrite (getAdjustment_success GSTA env cls s s' o Hos Hok). cbn [fst].
    rewrite (pack_adjustment_all_ones _ _ (disabled o) HA HI).
    split; [intros [HIones _]; contradiction | intros Hfail; contradiction].
Qed.

Lemma getAdjustment_sentinel_unambiguous_typical :
  fst (Java_javax_time_impl_WindowsSystemTime_getAdjustment
         mock_GetSystemTimeAdjustment 0 0 (mock_adjusting outcome_typical)) = -1 <->
  result outcome_typical = 0.
Proof.
  apply (getAdjustment_sentinel_unambiguous mock_GetSystemTimeAdjustment 0 0
           (mock_adjusting outcome_typical) (mock_adjusting outcome_typical)
           outcome_typical).
  - reflexivity.
  - unfold AdjustmentOutcome_ok, DWORD_ok; cbn; lia.
  - cbn; lia.
Defined.

(** ** Consecutive calls under a stable clock *)

(** The value of [get] is the signed 64-bit value of the reading. *)
Lemma time64_QuadPart (ft : FILETIME) :
  FILETIME_ok ft -> time64 (store_fileTime ft) = QuadPart ft.
Proof.
  intros Hwf. rewrite time64_value by exact Hwf.
  unfold QuadPart, LONG_of_DWORD, ticks.
  destruct (dwHighDateTime ft <? 2 ^ 31); lia.
Qed.

(** C8: for every number of consecutive calls of [get], in every state of
    the operating system, when the 64-bit values the clock supplies are
    non-decreasing (as the signed 64-bit integers the union is read as),
    the values [get] returns are non-decreasing; no bound on the readings
    is needed. *)
Theorem get_monotone {OS : Type} (GSTAFT : OS -> FILETIME * OS)
    (env cls : pointer) (n : nat) (s : OS) :
  Forall FILETIME_ok (fst (clock_readings GSTAFT n s)) ->
  Sorted Z.le (map QuadPart (fst (clock_readings GSTAFT n s))) ->
  Sorted Z.le (fst (consecutive_gets GSTAFT env cls n s)).
Proof.
  intros Hwf Hsorted.
  rewrite consecutive_gets_readings. cbn [fst].
  rewrite (map_ext_in _ QuadPart); [exact Hsorted |].
  intros ft Hin.
  rewrite Forall_forall in Hwf.
  apply time64_QuadPart, Hwf, Hin.
Qed.

Lemma get_monotone_above_sign :
  Sorted Z.le
    (fst (consecutive_gets mock_GetSystemTimeAsFileTime 0 0 3
            (mock_ticking
               [mkFILETIME 0 (2 ^ 31); mkFILETIME 7 (2 ^ 31); mkFILETIME 0 (2 ^ 31 + 1)]
               (mkFILETIME 0 (2 ^ 31 + 1))))).
Proof.
  apply (get_monotone mock_GetSystemTimeAsFileTime 0 0 3
           (mock_ticking
              [mkFILETIME 0 (2 ^ 31); mkFILETIME 7 (2 ^ 31); mkFILETIME 0 (2 ^ 31 + 1)]
              (mkFILETIME 0 (2 ^ 31 + 1)))).
  - repeat constructor; cbn; lia.
  - repeat constructor; cbn; lia.
Defined.
